(** * StereoCameraModel: a shallow embedding of corelib/src/StereoCameraModel.cpp

    The stereo model owns two monocular camera models and the extrinsic
    matrices R, T, E, F.  The development follows the C++ file function by
    function: [setName], [load], [save], [scale], [computeDepth], the two
    [computeDisparity] overloads and [stereoTransform].

    Numbers are IEEE-754 binary floating-point values, taken from the
    executable specification [SpecFloat] of the standard library: a C++
    [float] is a [spec_float] rounded to binary32, the scalars of the camera
    collaborator are [spec_float]s rounded to the collaborator's format.
    Files are documents of a store indexed by path. *)

From Stdlib Require Import ZArith List Bool Lia.
From Stdlib Require Import Floats.SpecFloat.
From stdpp Require Import gmap strings.

Local Open Scope Z_scope.
#[local] Set Warnings "-register-all".

(** ** IEEE-754 arithmetic *)

Module IEEE.

(** Conversion of a floating-point value to the format [(prec, emax)],
    rounding to nearest, ties to even: what C++ does when a [float] is
    promoted to [double] (exact) or a [double] is narrowed to [float]. *)
Definition SFconv (prec emax : Z) (x : spec_float) : spec_float :=
  match x with
  | S754_finite s m e => binary_normalize prec emax (cond_Zopp s (Zpos m)) e s
  | _ => x
  end.

(** An integer converted to the format [(prec, emax)]. *)
Definition SFofZ (prec emax : Z) (z : Z) : spec_float :=
  binary_normalize prec emax z 0 false.

(** Neither a finite number nor a zero: an infinity or a NaN. *)
Definition SFnot_finite (x : spec_float) : bool :=
  match x with
  | S754_infinity _ | S754_nan => true
  | _ => false
  end.

Definition SFis_zero (x : spec_float) : bool :=
  match x with
  | S754_zero _ => true
  | _ => false
  end.

(** *** binary32, the C++ [float] *)
Definition f32_prec : Z := 24.
Definition f32_emax : Z := 128.
Definition to_float : spec_float -> spec_float := SFconv f32_prec f32_emax.
Definition f32_ofZ : Z -> spec_float := SFofZ f32_prec f32_emax.
Definition f32_div : spec_float -> spec_float -> spec_float :=
  SFdiv f32_prec f32_emax.
(** The literal [0.0f]. *)
Definition f32_zero : spec_float := S754_zero false.
(** The literal [1000.0f]. *)
Definition f32_1000 : spec_float := f32_ofZ 1000.

(** *** binary64, the C++ [double] *)
Definition f64_prec : Z := 53.
Definition f64_emax : Z := 1024.
Definition f64_ofZ : Z -> spec_float := SFofZ f64_prec f64_emax.
Definition f64_div : spec_float -> spec_float -> spec_float :=
  SFdiv f64_prec f64_emax.
(** The double nearest to the fraction [n / d]. *)
Definition f64_frac (n d : Z) : spec_float := f64_div (f64_ofZ n) (f64_ofZ d).

End IEEE.
Import IEEE.

(** ** Results of code that can hit a fatal assertion

    [UASSERT] aborts the operation when its condition is false. *)

Inductive result (A : Type) : Type :=
  | Ret (a : A)
  | Fatal.
Arguments Ret {A} a.
Arguments Fatal {A}.

Global Instance result_ret : MRet result := fun _ a => Ret a.
Global Instance result_bind : MBind result := fun _ _ k r =>
  match r with
  | Ret a => k a
  | Fatal => Fatal
  end.

Definition UASSERT (c : bool) : result unit := if c then Ret tt else Fatal.

(** ** C++ integers and strings *)

(** A value brought into the range of a 32-bit [int]. *)
Definition wrap32 (z : Z) : Z := (z + 2^31) mod 2^32 - 2^31.

Definition INT_MAX : Z := 2^31 - 1.
Definition INT_MIN : Z := - 2^31.

(** [std::string::operator=(char)], reached by [name_ = (int)...]: the
    [int] is narrowed to one [char] and the string becomes that single
    character. *)
Definition string_assign_char (i : Z) : string :=
  String (Ascii.ascii_of_N (Z.to_N (i mod 256))) EmptyString.

Definition string_empty (s : string) : bool :=
  match s with
  | EmptyString => true
  | String _ _ => false
  end.

(** ** cv::Mat, a matrix of doubles over a flat row-major buffer *)

Record Mat : Type := mkMat {
  rows : Z;
  cols : Z;
  data : list spec_float
}.

(** [cv::Mat()] *)
Definition Mat_new : Mat := mkMat 0 0 [].

(** [cv::Mat::empty()]: no buffer, or no element. *)
Definition Mat_empty (m : Mat) : bool :=
  match data m with
  | [] => true
  | _ :: _ => rows m * cols m =? 0
  end.

(** [cv::Mat(rows, cols, CV_64FC1, v.data()).clone()] *)
Definition Mat_clone_of (r c : Z) (v : list spec_float) : Mat :=
  mkMat r c (take (Z.to_nat (r * c)) v).

(** [std::vector<double>((double* )m.data, ((double* )m.data) + m.rows*m.cols)] *)
Definition Mat_to_vector (m : Mat) : list spec_float :=
  take (Z.to_nat (rows m * cols m)) (data m).

(** [m.at<double>(i, j)]; an access outside the matrix is fatal. *)
Definition Mat_at2 (m : Mat) (i j : Z) : result spec_float :=
  if (0 <=? i) && (i <? rows m) && (0 <=? j) && (j <? cols m) then
    match data m !! Z.to_nat (i * cols m + j) with
    | Some x => Ret x
    | None => Fatal
    end
  else Fatal.

(** [m.at<double>(i)] on a continuous matrix: element [i] of the buffer. *)
Definition Mat_at1 (m : Mat) (i : Z) : result spec_float :=
  if (0 <=? i) && (i <? rows m * cols m) then
    match data m !! Z.to_nat i with
    | Some x => Ret x
    | None => Fatal
    end
  else Fatal.

(** Row [i] of a matrix: [cols] consecutive entries of the buffer. *)
Definition Mat_row (m : Mat) (i : Z) : list spec_float :=
  take (Z.to_nat (cols m)) (drop (Z.to_nat (i * cols m)) (data m)).

(** The shape the data model gives a matrix: empty, or [r] by [c] with a
    buffer of [r * c] entries. *)
Definition Mat_shaped (m : Mat) (r c : Z) : Prop :=
  Mat_empty m = true \/
  (rows m = r /\ cols m = c /\ length (data m) = Z.to_nat (r * c)).

(** ** Transform, the rigid transform collaborator

    Only its two constructors are used: the default one, and the one taking
    the twelve entries of a 3x4 matrix row by row. *)

Inductive Transform : Type :=
  | Transform_default
  | Transform_rt (r11 r12 r13 o14 r21 r22 r23 o24 r31 r32 r33 o34 : spec_float).

(** Row [i] of a transform built from twelve entries. *)
Definition Transform_row (t : Transform) (i : Z) : option (list spec_float) :=
  match t with
  | Transform_default => None
  | Transform_rt r11 r12 r13 o14 r21 r22 r23 o24 r31 r32 r33 o34 =>
      if i =? 0 then Some [r11; r12; r13; o14]
      else if i =? 1 then Some [r21; r22; r23; o24]
      else if i =? 2 then Some [r31; r32; r33; o34]
      else None
  end.

(** ** cv::FileStorage documents *)

Inductive FileNode : Type :=
  | FN_none
  | FN_int (i : Z)
  | FN_real (x : spec_float)
  | FN_str (s : string)
  | FN_seq (l : list FileNode)
  | FN_map (l : list (string * FileNode)).

Fixpoint assoc_find (key : string) (l : list (string * FileNode)) : FileNode :=
  match l with
  | [] => FN_none
  | (k, v) :: l' => if String.eqb k key then v else assoc_find key l'
  end.

(** [n["key"]] *)
Definition FileNode_get (n : FileNode) (key : string) : FileNode :=
  match n with
  | FN_map l => assoc_find key l
  | _ => FN_none
  end.

(** [cvRound]: the nearest integer, ties to even; the integer indefinite
    value when the argument has no [int] image. *)
Definition cvRound (x : spec_float) : Z :=
  match x with
  | S754_zero _ => 0
  | S754_infinity _ | S754_nan => INT_MIN
  | S754_finite s m e =>
      let r :=
        match e with
        | Z0 => Zpos m
        | Zpos _ => Z.shiftl (Zpos m) e
        | Zneg p =>
            let d := Z.shiftl 1 (Zpos p) in
            let q := Zpos m / d in
            let rem := Zpos m mod d in
            match Z.compare (2 * rem) d with
            | Lt => q
            | Gt => q + 1
            | Eq => if Z.even q then q else q + 1
            end
        end in
      let v := cond_Zopp s r in
      if (INT_MIN <=? v) && (v <=? INT_MAX) then v else INT_MIN
  end.

(** [(int)n], OpenCV's [FileNode::operator int]: 0 for an absent node, the
    value of an integer node, the rounded value of a real node, and
    [0x7fffffff] for every other node, a string node included. *)
Definition FileNode_int (n : FileNode) : Z :=
  match n with
  | FN_none => 0
  | FN_int i => i
  | FN_real x => cvRound x
  | _ => INT_MAX
  end.

(** One element read as a [double]; a non-numerical element raises. *)
Definition FileNode_double (n : FileNode) : result spec_float :=
  match n with
  | FN_int i => Ret (f64_ofZ i)
  | FN_real x => Ret x
  | _ => Fatal
  end.

Fixpoint read_doubles (l : list FileNode) : result (list spec_float) :=
  match l with
  | [] => Ret []
  | n :: l' =>
      x ← FileNode_double n;
      xs ← read_doubles l';
      mret (x :: xs)
  end.

(** [n >> data] for a [std::vector<double>]: the elements of a sequence,
    nothing for an absent node, the node itself for a scalar. *)
Definition FileNode_vector (n : FileNode) : result (list spec_float) :=
  match n with
  | FN_none => Ret []
  | FN_seq l => read_doubles l
  | FN_map l => read_doubles (map snd l)
  | _ => read_doubles [n]
  end.

(** [fs << key << "{" << "rows" << .. << "cols" << .. << "data" << .. << "}"] *)
Definition matrix_node (m : Mat) : FileNode :=
  FN_map [("rows", FN_int (rows m));
          ("cols", FN_int (cols m));
          ("data", FN_seq (map FN_real (Mat_to_vector m)))].

(** ** Depths in millimetres

    A depth sensor reports an [unsigned short]; the code turns it into metres
    with [float(depth)/1000.0f]. *)

(** The depth in metres, by the code's single-precision division. *)
Definition metres_f32 (z : Z) : spec_float := f32_div (f32_ofZ z) f32_1000.

(** The depth in metres, by the double-precision division [z/1000.0]
    narrowed to [float]. *)
Definition metres_f64 (z : Z) : spec_float :=
  to_float (f64_div (f64_ofZ z) (f64_ofZ 1000)).

(** The depth in metres does not compare equal to zero. *)
Definition metres_ok (z : Z) : bool := negb (SFeqb (metres_f32 z) f32_zero).

(** [p] holds at the [n] integers from [lo] on. *)
Fixpoint holds_range (p : Z -> bool) (lo : Z) (n : nat) : bool :=
  match n with
  | O => true
  | S k => p lo && holds_range p (lo + 1) k
  end.

(** ** The stereo camera model *)

Record StereoCameraModel (CameraModel : Type) : Type := mkStereo {
  name_ : string;
  left_ : CameraModel;
  right_ : CameraModel;
  R_ : Mat;
  T_ : Mat;
  E_ : Mat;
  F_ : Mat
}.
Arguments mkStereo {CameraModel}.
Arguments name_ {CameraModel}.
Arguments left_ {CameraModel}.
Arguments right_ {CameraModel}.
Arguments R_ {CameraModel}.
Arguments T_ {CameraModel}.
Arguments E_ {CameraModel}.
Arguments F_ {CameraModel}.

(** The extrinsics of the data model: R is empty or 3x3, T is empty or 3x1. *)
Definition extrinsics_shaped {C : Type} (m : StereoCameraModel C) : Prop :=
  Mat_shaped (R_ m) 3 3 /\ Mat_shaped (T_ m) 3 1.

(** What the headers declare and this file uses.

    The monocular camera collaborator (CameraModel) lives outside this
    file; the stereo model only uses the operations below.  [cm_load] reads
    the store and updates the camera, [cm_save] writes to the store, both
    report success as a boolean.  [prec] and [emax] give the floating-point
    format of the scalars [fx()], [cx()] and [baseline()]: [(53, 1024)] for
    [double].  [baseline] is an inline member of the stereo header. *)
Class Headers : Type := mkHeaders {
  CameraModel : Type;
  cm_setName : CameraModel -> string -> CameraModel;
  cm_load :
    CameraModel -> string -> string -> gmap string FileNode -> bool * CameraModel;
  cm_save :
    CameraModel -> string -> gmap string FileNode -> bool * gmap string FileNode;
  cm_scaled : CameraModel -> spec_float -> CameraModel;
  cm_isValid : CameraModel -> bool;
  cm_fx : CameraModel -> spec_float;
  cm_cx : CameraModel -> spec_float;
  prec : Z;
  emax : Z;
  baseline : StereoCameraModel CameraModel -> spec_float
}.

Section Operations.

Context {H : Headers}.

Definition Stereo : Type := StereoCameraModel CameraModel.

Definition set_name (m : Stereo) (n : string) : Stereo :=
  mkStereo n (left_ m) (right_ m) (R_ m) (T_ m) (E_ m) (F_ m).
Definition set_left (m : Stereo) (c : CameraModel) : Stereo :=
  mkStereo (name_ m) c (right_ m) (R_ m) (T_ m) (E_ m) (F_ m).
Definition set_right (m : Stereo) (c : CameraModel) : Stereo :=
  mkStereo (name_ m) (left_ m) c (R_ m) (T_ m) (E_ m) (F_ m).
Definition set_R (m : Stereo) (x : Mat) : Stereo :=
  mkStereo (name_ m) (left_ m) (right_ m) x (T_ m) (E_ m) (F_ m).
Definition set_T (m : Stereo) (x : Mat) : Stereo :=
  mkStereo (name_ m) (left_ m) (right_ m) (R_ m) x (E_ m) (F_ m).
Definition set_E (m : Stereo) (x : Mat) : Stereo :=
  mkStereo (name_ m) (left_ m) (right_ m) (R_ m) (T_ m) x (F_ m).
Definition set_F (m : Stereo) (x : Mat) : Stereo :=
  mkStereo (name_ m) (left_ m) (right_ m) (R_ m) (T_ m) (E_ m) x.

(** Modelled from the spec: [isValid()] is an inline member of the header;
    a stereo model is valid when both monocular models are. *)
Definition isValid (m : Stereo) : bool :=
  cm_isValid (left_ m) && cm_isValid (right_ m).

(** Arithmetic on the collaborator's scalars. *)
Definition smul := SFmul prec emax.
Definition sdiv := SFdiv prec emax.
Definition sadd := SFadd prec emax.
Definition ssub := SFsub prec emax.
(** A [float] operand promoted to the scalar format. *)
Definition of_float := SFconv prec emax.

(** *** setName *)
Definition setName (m : Stereo) (name : string) : Stereo :=
  let m := set_name m name in
  let m := set_left m (cm_setName (left_ m) (name_ m +:+ "_left")) in
  set_right m (cm_setName (right_ m) (name_ m +:+ "_right")).

(** *** load *)

(** One matrix block of the pose file: the node under [key], its [rows],
    [cols] and [data], the two assertions, and the matrix cloned from the
    data.  [load] repeats these lines for R, T, E and F. *)
Definition read_matrix (fs : FileNode) (key : string) (r c : Z) : result Mat :=
  let n := FileNode_get fs key in
  let rows := FileNode_int (FileNode_get n "rows") in
  let cols := FileNode_int (FileNode_get n "cols") in
  data ← FileNode_vector (FileNode_get n "data");
  _ ← UASSERT (wrap32 (rows * cols) =? wrap32 (Z.of_nat (length data)));
  _ ← UASSERT ((rows =? r) && (cols =? c));
  mret (Mat_clone_of rows cols data).

Definition pose_path (directory name : string) : string :=
  directory +:+ "/" +:+ name +:+ "_pose.yaml".

Definition load (m : Stereo) (directory cameraName : string)
    (ignoreStereoTransform : bool) (files : gmap string FileNode)
    : result (bool * Stereo) :=
  let m := set_name m cameraName in
  let '(okl, l) := cm_load (left_ m) directory (cameraName +:+ "_left") files in
  let m := set_left m l in
  if okl then
    let '(okr, r) := cm_load (right_ m) directory (cameraName +:+ "_right") files in
    let m := set_right m r in
    if okr then
      if ignoreStereoTransform then Ret (true, m)
      else
        let m := set_R m Mat_new in
        let m := set_T m Mat_new in
        let filePath := pose_path directory cameraName in
        match files !! filePath with
        | Some fs =>
            let m := set_name m (string_assign_char (FileNode_int (FileNode_get fs "camera_name"))) in
            R ← read_matrix fs "rotation_matrix" 3 3;
            let m := set_R m R in
            T ← read_matrix fs "translation_matrix" 3 1;
            let m := set_T m T in
            E ← read_matrix fs "essential_matrix" 3 3;
            let m := set_E m E in
            F ← read_matrix fs "fundamental_matrix" 3 3;
            let m := set_F m F in
            Ret (true, m)
        | None => Ret (false, m)
        end
    else Ret (false, m)
  else Ret (false, m).

(** *** save *)

(** The document written to the pose file. *)
Definition pose_document (m : Stereo) : FileNode :=
  FN_map [("camera_name", FN_str (name_ m));
          ("rotation_matrix", matrix_node (R_ m));
          ("translation_matrix", matrix_node (T_ m));
          ("essential_matrix", matrix_node (E_ m));
          ("fundamental_matrix", matrix_node (F_ m))].

Definition save (m : Stereo) (directory : string)
    (ignoreStereoTransform : bool) (files : gmap string FileNode)
    : bool * gmap string FileNode :=
  let '(okl, files) := cm_save (left_ m) directory files in
  if okl then
    let '(okr, files) := cm_save (right_ m) directory files in
    if okr then
      if ignoreStereoTransform then (true, files)
      else
        let filePath := pose_path directory (name_ m) in
        if negb (string_empty filePath) && negb (string_empty (name_ m))
           && negb (Mat_empty (R_ m)) && negb (Mat_empty (T_ m))
        then (true, <[filePath := pose_document m]> files)
        else (false, files)
    else (false, files)
  else (false, files).

(** *** scale *)
Definition scale (m : Stereo) (scale : spec_float) : Stereo :=
  let m := set_left m (cm_scaled (left_ m) scale) in
  set_right m (cm_scaled (right_ m) scale).

(** *** computeDepth and computeDisparity *)

(** The divisor of [computeDepth]: [disparity + right().cx() - left().cx()]. *)
Definition depth_divisor (m : Stereo) (disparity : spec_float) : spec_float :=
  ssub (sadd (of_float disparity) (cm_cx (right_ m))) (cm_cx (left_ m)).

Definition computeDepth (m : Stereo) (disparity : spec_float)
    : result spec_float :=
  _ ← UASSERT (isValid m);
  if SFeqb disparity f32_zero then Ret f32_zero
  else
    Ret (to_float (sdiv (smul (baseline m) (cm_fx (left_ m)))
                        (depth_divisor m disparity))).

(** [computeDisparity(float depth)] *)
Definition computeDisparity (m : Stereo) (depth : spec_float)
    : result spec_float :=
  _ ← UASSERT (isValid m);
  if SFeqb depth f32_zero then Ret f32_zero
  else
    Ret (to_float
           (sadd (ssub (sdiv (smul (baseline m) (cm_fx (left_ m))) (of_float depth))
                       (cm_cx (right_ m)))
                 (cm_cx (left_ m)))).

(** [computeDisparity(unsigned short depth)] *)
Definition computeDisparity_ushort (m : Stereo) (depth : Z)
    : result spec_float :=
  _ ← UASSERT (isValid m);
  if depth =? 0 then Ret f32_zero
  else
    Ret (to_float
           (sadd (ssub (sdiv (smul (baseline m) (cm_fx (left_ m)))
                             (of_float (f32_div (f32_ofZ depth) f32_1000)))
                       (cm_cx (right_ m)))
                 (cm_cx (left_ m)))).

(** *** stereoTransform *)
Definition stereoTransform (m : Stereo) : result Transform :=
  if negb (Mat_empty (R_ m)) && negb (Mat_empty (T_ m)) then
    r00 ← Mat_at2 (R_ m) 0 0; r01 ← Mat_at2 (R_ m) 0 1; r02 ← Mat_at2 (R_ m) 0 2;
    t0 ← Mat_at1 (T_ m) 0;
    r10 ← Mat_at2 (R_ m) 1 0; r11 ← Mat_at2 (R_ m) 1 1; r12 ← Mat_at2 (R_ m) 1 2;
    t1 ← Mat_at1 (T_ m) 1;
    r20 ← Mat_at2 (R_ m) 2 0; r21 ← Mat_at2 (R_ m) 2 1; r22 ← Mat_at2 (R_ m) 2 2;
    t2 ← Mat_at1 (T_ m) 2;
    Ret (Transform_rt r00 r01 r02 t0 r10 r11 r12 t1 r20 r21 r22 t2)
  else Ret Transform_default.

End Operations.

(** ** Shapes and numbers used by the further properties *)

(** A matrix of exactly [r] rows and [c] columns over a buffer of [r * c]
    entries. *)
Definition Mat_is (m : Mat) (r c : Z) : Prop :=
  rows m = r /\ cols m = c /\ length (data m) = Z.to_nat (r * c).

(** The four matrices have the shapes [load] asserts. *)
Definition calibrated {C : Type} (m : StereoCameraModel C) : Prop :=
  Mat_is (R_ m) 3 3 /\ Mat_is (T_ m) 3 1 /\ Mat_is (E_ m) 3 3 /\ Mat_is (F_ m) 3 3.

(** A number or a zero: neither an infinity nor a NaN. *)
Definition SFis_number (x : spec_float) : bool := negb (SFnot_finite x).

(** The row and column counts of [m] are [r] and [c]. *)
Definition shape_is (m : Mat) (r c : Z) : bool := (rows m =? r) && (cols m =? c).

(** The row and column counts that [load] asserts for R, T, E and F. *)
Definition asserted_shapes {C : Type} (m : StereoCameraModel C) : bool :=
  shape_is (R_ m) 3 3 && shape_is (T_ m) 3 1 &&
  shape_is (E_ m) 3 3 && shape_is (F_ m) 3 3.

(** ** A concrete collaborator

    A small monocular camera with [double] scalars, used to run the
    operations on concrete inputs: it is stored as a document
    [{directory}/{name}.yaml] holding [fx] and [cx]. *)

Module Sample.

Record Camera : Type := mkCamera {
  cam_name : string;
  cam_fx : spec_float;
  cam_cx : spec_float
}.

Definition camera_path (directory name : string) : string :=
  directory +:+ "/" +:+ name +:+ ".yaml".

Definition camera_setName (c : Camera) (n : string) : Camera :=
  mkCamera n (cam_fx c) (cam_cx c).

Definition camera_load (c : Camera) (directory name : string)
    (files : gmap string FileNode) : bool * Camera :=
  match files !! camera_path directory name with
  | Some doc =>
      match FileNode_get doc "fx", FileNode_get doc "cx" with
      | FN_real fx, FN_real cx => (true, mkCamera name fx cx)
      | _, _ => (false, c)
      end
  | None => (false, c)
  end.

Definition camera_save (c : Camera) (directory : string)
    (files : gmap string FileNode) : bool * gmap string FileNode :=
  if string_empty (cam_name c) then (false, files)
  else
    (true,
     <[camera_path directory (cam_name c) :=
         FN_map [("fx", FN_real (cam_fx c)); ("cx", FN_real (cam_cx c))]]> files).

Definition camera_scaled (c : Camera) (k : spec_float) : Camera :=
  mkCamera (cam_name c)
           (SFmul f64_prec f64_emax (cam_fx c) k)
           (SFmul f64_prec f64_emax (cam_cx c) k).

Definition camera_isValid (c : Camera) : bool :=
  negb (SFeqb (cam_fx c) (S754_zero false)).

(** The length of the first entry of the translation vector. *)
Definition stereo_baseline (m : StereoCameraModel Camera) : spec_float :=
  match data (T_ m) with
  | x :: _ => SFabs x
  | [] => S754_zero false
  end.

Definition headers : Headers :=
  mkHeaders Camera camera_setName camera_load camera_save camera_scaled
            camera_isValid (fun c => cam_fx c) (fun c => cam_cx c)
            f64_prec f64_emax stereo_baseline.

(** The identity rotation and a translation of [-0.1] along x. *)
Definition R0 : Mat :=
  mkMat 3 3 (map f64_ofZ [1; 0; 0; 0; 1; 0; 0; 0; 1]).
Definition T0 : Mat :=
  mkMat 3 1 [f64_frac (-1) 10; f64_ofZ 0; f64_ofZ 0].

(** The rig of the spec's example: baseline 0.1 m, [fx = 500],
    [cx = 320] on both sides. *)
Definition rig : StereoCameraModel Camera :=
  mkStereo "stereo"
           (mkCamera "stereo_left" (f64_ofZ 500) (f64_ofZ 320))
           (mkCamera "stereo_right" (f64_ofZ 500) (f64_ofZ 320))
           R0 T0 R0 R0.

(** The same rig with principal points [320.5] and [320.4]. *)
Definition rig_offset : StereoCameraModel Camera :=
  mkStereo "stereo"
           (mkCamera "stereo_left" (f64_ofZ 500) (f64_frac 3205 10))
           (mkCamera "stereo_right" (f64_ofZ 500) (f64_frac 3204 10))
           R0 T0 R0 R0.

(** The same rig with principal points [320] and [321]. *)
Definition rig_shift : StereoCameraModel Camera :=
  mkStereo "stereo"
           (mkCamera "stereo_left" (f64_ofZ 500) (f64_ofZ 320))
           (mkCamera "stereo_right" (f64_ofZ 500) (f64_ofZ 321))
           R0 T0 R0 R0.

(** A rig without extrinsics. *)
Definition rig_bare : StereoCameraModel Camera :=
  mkStereo "stereo"
           (mkCamera "stereo_left" (f64_ofZ 500) (f64_ofZ 320))
           (mkCamera "stereo_right" (f64_ofZ 500) (f64_ofZ 320))
           Mat_new Mat_new Mat_new Mat_new.

(** The store after [rig] is saved to [dir] with its extrinsics, and
    with the monocular files only. *)
Definition files_saved : gmap string FileNode :=
  snd (@save headers rig "dir" false ∅).
Definition files_mono : gmap string FileNode :=
  snd (@save headers rig "dir" true ∅).

(** The sample rig without its essential matrix, and the store after it is
    saved. *)
Definition rig_no_E : StereoCameraModel Camera :=
  mkStereo "stereo" (left_ rig) (right_ rig) R0 T0 Mat_new R0.
Definition files_no_E : gmap string FileNode :=
  snd (@save headers rig_no_E "dir" false ∅).

(** The monocular files and a pose file that holds no block. *)
Definition files_blank : gmap string FileNode :=
  <["dir/stereo_pose.yaml" := FN_map [("camera_name", FN_str "stereo")]]> files_mono.


End Sample.

(** * Properties *)

(** ** Floating-point facts *)

(** [x == 0.0f] holds exactly for the two zeros. *)
Lemma SFeqb_zero (x : spec_float) : SFeqb x f32_zero = SFis_zero x.
Proof. destruct x as [s|s| |s m e]; try reflexivity; now destruct s. Qed.

(** A division by a zero yields an infinity or a NaN, in every format. *)
Lemma SFdiv_by_zero (p e : Z) (x y : spec_float) :
  SFis_zero y = true -> SFnot_finite (SFdiv p e x y) = true.
Proof.
  destruct y as [sy|sy| |sy my ey]; try discriminate.
  intros _. now destruct x.
Qed.

Lemma SFconv_not_finite (p e : Z) (x : spec_float) :
  SFnot_finite x = true -> SFconv p e x = x.
Proof. now destruct x. Qed.

Lemma holds_range_spec (p : Z -> bool) (n : nat) :
  forall lo, holds_range p lo n = true ->
  forall z, lo <= z < lo + Z.of_nat n -> p z = true.
Proof.
  induction n as [|k IH]; intros lo Hn z Hz.
  - simpl in Hz. lia.
  - simpl in Hn. apply andb_prop in Hn as [Hlo Hrest].
    destruct (Z.eq_dec z lo) as [->|Hne]; [exact Hlo|].
    apply (IH (lo + 1)); [exact Hrest | lia].
Qed.

(** Every nonzero 16-bit millimetre depth converts to a nonzero number of
    metres: the 65535 quotients are computed. *)
Lemma metres_ok_all : holds_range metres_ok 1 (Z.to_nat 65535) = true.
Proof. vm_compute. reflexivity. Qed.

Lemma metres_ok_ushort (z : Z) : 0 < z < 65536 -> metres_ok z = true.
Proof.
  intros Hz. apply (holds_range_spec metres_ok _ 1 metres_ok_all).
  rewrite Z2Nat.id; lia.
Qed.

(** ** Depth and disparity *)

Section Conversions.

Context {H : Headers}.

(** An invalid model makes the three conversions abort. *)
Lemma conversions_need_valid (m : Stereo) (x : spec_float) (z : Z) :
  isValid m = false ->
  computeDepth m x = Fatal /\ computeDisparity m x = Fatal /\
  computeDisparity_ushort m z = Fatal.
Proof.
  intros Hv. unfold computeDepth, computeDisparity, computeDisparity_ushort.
  rewrite Hv. repeat split.
Qed.

(** C1. On a valid stereo model [computeDepth] returns [0] when the
    disparity compares equal to zero (it is one of the two zeros), and
    otherwise [baseline * fx_left / (disparity + cx_right - cx_left)],
    computed on the collaborator's scalars and returned as a [float]. *)
Theorem computeDepth_spec (m : Stereo) (disparity : spec_float) :
  isValid m = true ->
  (SFis_zero disparity = true -> computeDepth m disparity = Ret f32_zero) /\
  (SFis_zero disparity = false ->
   computeDepth m disparity =
     Ret (to_float
            (sdiv (smul (baseline m) (cm_fx (left_ m)))
                  (ssub (sadd (of_float disparity) (cm_cx (right_ m)))
                        (cm_cx (left_ m)))))).
Proof.
  intros Hv. unfold computeDepth, depth_divisor. rewrite Hv, SFeqb_zero.
  split; intros ->; reflexivity.
Qed.

(** C2. On a valid stereo model the real-valued [computeDisparity] returns
    [0] when the depth compares equal to zero, and otherwise
    [baseline * fx_left / depth - cx_right + cx_left]. *)
Theorem computeDisparity_spec (m : Stereo) (depth : spec_float) :
  isValid m = true ->
  (SFis_zero depth = true -> computeDisparity m depth = Ret f32_zero) /\
  (SFis_zero depth = false ->
   computeDisparity m depth =
     Ret (to_float
            (sadd (ssub (sdiv (smul (baseline m) (cm_fx (left_ m)))
                              (of_float depth))
                        (cm_cx (right_ m)))
                  (cm_cx (left_ m))))).
Proof.
  intros Hv. unfold computeDisparity. rewrite Hv, SFeqb_zero.
  split; intros ->; reflexivity.
Qed.

(** The quantized overload is the real-valued one at the depth in metres,
    as soon as that depth is not zero. *)
Lemma computeDisparity_ushort_metres (m : Stereo) (z : Z) :
  z <> 0 -> SFeqb (metres_f32 z) f32_zero = false ->
  computeDisparity_ushort m z = computeDisparity m (metres_f32 z).
Proof.
  intros Hz Hnz. unfold computeDisparity_ushort, computeDisparity.
  destruct (isValid m); [|reflexivity]. simpl.
  rewrite Hnz. apply Z.eqb_neq in Hz. rewrite Hz. reflexivity.
Qed.

(** C3. On a valid stereo model, for every unsigned 16-bit depth in
    millimetres, the quantized [computeDisparity] returns [0] at [0] and
    otherwise equals the real-valued overload applied to the depth divided
    by [1000], the [float] that the code computes as [float(z)/1000.0f]. *)
Theorem computeDisparity_ushort_spec (m : Stereo) (zMillimeters : Z) :
  isValid m = true ->
  0 <= zMillimeters < 65536 ->
  (zMillimeters = 0 -> computeDisparity_ushort m zMillimeters = Ret f32_zero) /\
  (zMillimeters <> 0 ->
   computeDisparity_ushort m zMillimeters =
     computeDisparity m (f32_div (f32_ofZ zMillimeters) f32_1000)).
Proof.
  intros Hv Hz. split.
  - intros ->. unfold computeDisparity_ushort. rewrite Hv. reflexivity.
  - intros Hnz.
    assert (Hok : metres_ok zMillimeters = true) by (apply metres_ok_ushort; lia).
    unfold metres_ok in Hok. apply negb_true_iff in Hok.
    apply computeDisparity_ushort_metres; assumption.
Qed.

(** The depth returned when the guard is passed and the divisor is zero is
    an infinity or a NaN. *)
Lemma depth_over_zero (m : Stereo) (disparity : spec_float) :
  SFis_zero (depth_divisor m disparity) = true ->
  SFnot_finite
    (to_float (sdiv (smul (baseline m) (cm_fx (left_ m)))
                    (depth_divisor m disparity))) = true.
Proof.
  intros Hz. unfold to_float. rewrite SFconv_not_finite.
  - now apply SFdiv_by_zero.
  - now apply SFdiv_by_zero.
Qed.

(** C10, as amended. The guard of [computeDepth] tests the disparity
    alone: on a valid model, every nonzero disparity for which
    [disparity + cx_right - cx_left] evaluates to a zero passes the guard,
    the division is performed with that zero divisor, and the depth
    returned is an infinity or a NaN. *)
Theorem computeDepth_zero_divisor (m : Stereo) (disparity : spec_float) :
  isValid m = true ->
  SFis_zero disparity = false ->
  SFis_zero (depth_divisor m disparity) = true ->
  SFeqb disparity f32_zero = false /\
  exists depth,
    computeDepth m disparity = Ret depth /\
    depth = to_float (sdiv (smul (baseline m) (cm_fx (left_ m)))
                           (depth_divisor m disparity)) /\
    SFnot_finite depth = true.
Proof.
  intros Hv Hd Hz. rewrite SFeqb_zero. split; [exact Hd|].
  eexists. split; [|split; [reflexivity|]].
  - unfold computeDepth. rewrite Hv, SFeqb_zero, Hd. reflexivity.
  - now apply depth_over_zero.
Qed.

End Conversions.

(** The example of the spec: baseline 0.1 m, [fx = 500], equal principal
    points and a disparity of 10 give a depth of 5. *)
Example computeDepth_example :
  @computeDepth Sample.headers Sample.rig (f32_ofZ 10) = Ret (f32_ofZ 5).
Proof. vm_compute. reflexivity. Qed.

(** C1, at the rig of the spec's example. *)
Lemma computeDepth_spec_witness :
  @isValid Sample.headers Sample.rig = true /\
  @computeDepth Sample.headers Sample.rig (S754_zero true) = Ret f32_zero /\
  @computeDepth Sample.headers Sample.rig (f32_ofZ 10) = Ret (f32_ofZ 5).
Proof.
  split; [reflexivity|]. split.
  - apply (proj1 (@computeDepth_spec Sample.headers Sample.rig (S754_zero true) eq_refl)).
    reflexivity.
  - rewrite (proj2 (@computeDepth_spec Sample.headers Sample.rig (f32_ofZ 10) eq_refl)).
    + vm_compute. reflexivity.
    + reflexivity.
Defined.

(** C2, at the rig of the spec's example: a depth of 5 m is a disparity of 10. *)
Lemma computeDisparity_spec_witness :
  @isValid Sample.headers Sample.rig = true /\
  @computeDisparity Sample.headers Sample.rig f32_zero = Ret f32_zero /\
  @computeDisparity Sample.headers Sample.rig (f32_ofZ 5) = Ret (f32_ofZ 10).
Proof.
  split; [reflexivity|]. split.
  - apply (proj1 (@computeDisparity_spec Sample.headers Sample.rig f32_zero eq_refl)).
    reflexivity.
  - rewrite (proj2 (@computeDisparity_spec Sample.headers Sample.rig (f32_ofZ 5) eq_refl)).
    + vm_compute. reflexivity.
    + reflexivity.
Defined.

(** At the ends and in the middle of the range, the double division
    [z/1000.0] passed as a [float] is the same depth in metres. *)
Example metres_double_division :
  metres_f64 1 = metres_f32 1 /\ metres_f64 5000 = metres_f32 5000 /\
  metres_f64 65535 = metres_f32 65535.
Proof. repeat split; vm_compute; reflexivity. Qed.

(** C3, at 5000 mm on the rig of the spec's example. *)
Lemma computeDisparity_ushort_spec_witness :
  @isValid Sample.headers Sample.rig = true /\
  0 <= 5000 < 65536 /\
  @computeDisparity_ushort Sample.headers Sample.rig 5000 =
    @computeDisparity Sample.headers Sample.rig (f32_div (f32_ofZ 5000) f32_1000).
Proof.
  split; [reflexivity|]. split; [lia|].
  apply (@computeDisparity_ushort_spec Sample.headers Sample.rig 5000 eq_refl);
    [lia | discriminate].
Defined.

(** ** Persistence *)

Section Persistence.

Context {H : Headers}.

(** A matrix block that is read has the asserted shape and as many entries. *)
Lemma read_matrix_shape (fs : FileNode) (key : string) (r c : Z) (M : Mat) :
  0 <= r * c < 2^31 ->
  read_matrix fs key r c = Ret M ->
  rows M = r /\ cols M = c /\ length (data M) = Z.to_nat (r * c).
Proof.
  intros Hrc. unfold read_matrix.
  destruct (FileNode_vector _) as [v|]; [|discriminate]. simpl.
  destruct (wrap32 _ =? wrap32 _) eqn:Hsize; [|discriminate]. simpl.
  destruct (_ && _) eqn:Hshape; [|discriminate]. simpl.
  intros [= <-]. apply andb_prop in Hshape as [Hr Hc].
  apply Z.eqb_eq in Hr, Hc, Hsize. rewrite Hr, Hc in *.
  simpl. repeat split. rewrite length_take.
  assert (Hlen : r * c <= Z.of_nat (length v)).
  { unfold wrap32 in Hsize.
    rewrite (Z.mod_small (r * c + 2^31)) in Hsize by lia.
    pose proof (Z.div_mod (Z.of_nat (length v) + 2^31) (2^32) ltac:(lia)) as Hdm.
    pose proof (Z.div_pos (Z.of_nat (length v) + 2^31) (2^32) ltac:(lia) ltac:(lia)).
    lia. }
  lia.
Qed.

(** What a successful [load] with the stereo transform has done. *)
Lemma load_true_inv (m m' : Stereo) (directory cameraName : string)
    (files : gmap string FileNode) :
  load m directory cameraName false files = Ret (true, m') ->
  exists l r fs R T E F,
    cm_load (left_ m) directory (cameraName +:+ "_left") files = (true, l) /\
    cm_load (right_ m) directory (cameraName +:+ "_right") files = (true, r) /\
    files !! pose_path directory cameraName = Some fs /\
    read_matrix fs "rotation_matrix" 3 3 = Ret R /\
    read_matrix fs "translation_matrix" 3 1 = Ret T /\
    read_matrix fs "essential_matrix" 3 3 = Ret E /\
    read_matrix fs "fundamental_matrix" 3 3 = Ret F /\
    m' = mkStereo (string_assign_char (FileNode_int (FileNode_get fs "camera_name")))
                  l r R T E F.
Proof.
  unfold load. simpl.
  destruct (cm_load (left_ m) _ _ _) as [[|] l] eqn:Hl; [|discriminate].
  destruct (cm_load (right_ m) _ _ _) as [[|] r] eqn:Hr; [|discriminate].
  destruct (files !! _) as [fs|] eqn:Hfs; [|discriminate].
  destruct (read_matrix fs "rotation_matrix" 3 3) as [R|] eqn:HR; [|discriminate].
  destruct (read_matrix fs "translation_matrix" 3 1) as [T|] eqn:HT; [|discriminate].
  destruct (read_matrix fs "essential_matrix" 3 3) as [E|] eqn:HE; [|discriminate].
  destruct (read_matrix fs "fundamental_matrix" 3 3) as [F|] eqn:HF; [|discriminate].
  simpl. intros [= <-]. exists l, r, fs, R, T, E, F.
  repeat split; assumption.
Qed.

(** After a successful [load] with the stereo transform the name is the one
    character obtained from [(int)fs["camera_name"]], whatever the file
    stores under that key. *)
Lemma load_name_one_char (m m' : Stereo) (directory cameraName : string)
    (files : gmap string FileNode) :
  load m directory cameraName false files = Ret (true, m') ->
  exists fs,
    files !! pose_path directory cameraName = Some fs /\
    name_ m' = string_assign_char (FileNode_int (FileNode_get fs "camera_name")) /\
    String.length (name_ m') = 1%nat.
Proof.
  intros Hl. apply load_true_inv in Hl as (l & r & fs & R & T & E & F & Hl).
  destruct Hl as (_ & _ & Hfs & _ & _ & _ & _ & ->).
  exists fs. repeat split. exact Hfs.
Qed.

(** C5. When both monocular loads succeed, the stereo transform is not
    ignored and the pose file does not exist, [load] returns false; the
    model is left with the new name, the loaded cameras and R and T reset. *)
Theorem load_missing_pose (m : Stereo) (directory cameraName : string)
    (files : gmap string FileNode) (l r : CameraModel) :
  cm_load (left_ m) directory (cameraName +:+ "_left") files = (true, l) ->
  cm_load (right_ m) directory (cameraName +:+ "_right") files = (true, r) ->
  files !! (directory +:+ "/" +:+ cameraName +:+ "_pose.yaml") = None ->
  load m directory cameraName false files =
    Ret (false, mkStereo cameraName l r Mat_new Mat_new (E_ m) (F_ m)).
Proof.
  intros Hl Hr Hf. unfold load, pose_path. simpl.
  rewrite Hl. simpl. rewrite Hr. simpl. rewrite Hf. reflexivity.
Qed.

(** C6, as amended. When both monocular loads succeed,
    [load(directory, cameraName, true)] returns true whether or not the
    pose file exists, and R, T, E and F are the ones the model had before
    the call. *)
Theorem load_ignoring_transform (m : Stereo) (directory cameraName : string)
    (files : gmap string FileNode) (l r : CameraModel) :
  cm_load (left_ m) directory (cameraName +:+ "_left") files = (true, l) ->
  cm_load (right_ m) directory (cameraName +:+ "_right") files = (true, r) ->
  load m directory cameraName true files =
    Ret (true, mkStereo cameraName l r (R_ m) (T_ m) (E_ m) (F_ m)).
Proof.
  intros Hl Hr. unfold load. simpl.
  rewrite Hl. simpl. rewrite Hr. reflexivity.
Qed.

(** [save] writes the pose file and returns true when the name, R and T
    are all present. *)
Lemma save_with_extrinsics (m : Stereo) (directory : string)
    (files f1 f2 : gmap string FileNode) :
  cm_save (left_ m) directory files = (true, f1) ->
  cm_save (right_ m) directory f1 = (true, f2) ->
  string_empty (name_ m) = false ->
  Mat_empty (R_ m) = false -> Mat_empty (T_ m) = false ->
  save m directory false files =
    (true, <[pose_path directory (name_ m) := pose_document m]> f2).
Proof.
  intros Hl Hr Hn HR HT. unfold save. rewrite Hl, Hr, Hn, HR, HT.
  replace (string_empty (pose_path directory (name_ m))) with false; [reflexivity|].
  unfold pose_path. destruct directory; reflexivity.
Qed.

(** C4, as amended. When both monocular saves succeed, the stereo
    transform is not ignored and the name, R or T is empty,
    [save(directory, false)] returns false; the pose file is not written:
    the store is the one the two monocular saves left. *)
Theorem save_without_extrinsics (m : Stereo) (directory : string)
    (files f1 f2 : gmap string FileNode) :
  cm_save (left_ m) directory files = (true, f1) ->
  cm_save (right_ m) directory f1 = (true, f2) ->
  string_empty (name_ m) = true \/ Mat_empty (R_ m) = true \/ Mat_empty (T_ m) = true ->
  save m directory false files = (false, f2).
Proof.
  intros Hl Hr Hempty. unfold save. rewrite Hl, Hr.
  destruct Hempty as [-> | [-> | ->]];
    rewrite ?andb_false_r; simpl; rewrite ?andb_false_r; reflexivity.
Qed.

(** C9. [scale] replaces the left and the right model by the
    collaborator's rescaled copies and leaves the name, R, T, E and F as
    they were. *)
Theorem scale_frame (m : Stereo) (k : spec_float) :
  left_ (scale m k) = cm_scaled (left_ m) k /\
  right_ (scale m k) = cm_scaled (right_ m) k /\
  name_ (scale m k) = name_ m /\
  R_ (scale m k) = R_ m /\ T_ (scale m k) = T_ m /\
  E_ (scale m k) = E_ m /\ F_ (scale m k) = F_ m.
Proof. repeat split. Qed.

End Persistence.

(** ** The shape of the extrinsics *)

Section Invariant.

Context {H : Headers}.

Lemma Mat_new_shaped (r c : Z) : Mat_shaped Mat_new r c.
Proof. left. reflexivity. Qed.

(** The shapes of R and T are kept by every operation of the class:
    [setName] and [scale] do not touch the extrinsics, [load] keeps them,
    resets them or reads them under its assertions. *)
Lemma setName_keeps_shaped (m : Stereo) (name : string) :
  extrinsics_shaped m -> extrinsics_shaped (setName m name).
Proof. intros Hm. exact Hm. Qed.

Lemma scale_keeps_shaped (m : Stereo) (k : spec_float) :
  extrinsics_shaped m -> extrinsics_shaped (scale m k).
Proof. intros Hm. exact Hm. Qed.

Lemma load_keeps_shaped (m m' : Stereo) (directory cameraName : string)
    (ignoreStereoTransform ok : bool) (files : gmap string FileNode) :
  extrinsics_shaped m ->
  load m directory cameraName ignoreStereoTransform files = Ret (ok, m') ->
  extrinsics_shaped m'.
Proof.
  intros Hm. unfold load. simpl.
  destruct (cm_load (left_ m) _ _ _) as [[|] l];
    [|intros [= _ <-]; exact Hm].
  destruct (cm_load (right_ m) _ _ _) as [[|] r];
    [|intros [= _ <-]; exact Hm].
  destruct ignoreStereoTransform; [intros [= _ <-]; exact Hm|].
  destruct (files !! _) as [fs|];
    [|intros [= _ <-]; split; apply Mat_new_shaped].
  destruct (read_matrix fs "rotation_matrix" 3 3) as [R|] eqn:HR; [|discriminate].
  destruct (read_matrix fs "translation_matrix" 3 1) as [T|] eqn:HT; [|discriminate].
  destruct (read_matrix fs "essential_matrix" 3 3) as [E|]; [|discriminate].
  destruct (read_matrix fs "fundamental_matrix" 3 3) as [F|]; [|discriminate].
  simpl. intros [= _ <-]. split; right; simpl.
  - apply (read_matrix_shape fs "rotation_matrix"); [lia | exact HR].
  - apply (read_matrix_shape fs "translation_matrix"); [lia | exact HT].
Qed.

End Invariant.

(** Scaling the sample rig by 2 doubles [fx] and [cx] on both sides. *)
Example scale_example :
  @scale Sample.headers Sample.rig (f64_ofZ 2) =
    mkStereo "stereo"
             (Sample.mkCamera "stereo_left" (f64_ofZ 1000) (f64_ofZ 640))
             (Sample.mkCamera "stereo_right" (f64_ofZ 1000) (f64_ofZ 640))
             Sample.R0 Sample.T0 Sample.R0 Sample.R0.
Proof. vm_compute. reflexivity. Qed.

(** ** The stereo transform *)

Section StereoTransform.

Context {H : Headers}.

(** A successful [load] leaves R and T with the shapes of the data model. *)
Lemma load_extrinsics_shaped (m m' : Stereo) (directory cameraName : string)
    (files : gmap string FileNode) :
  load m directory cameraName false files = Ret (true, m') ->
  extrinsics_shaped m'.
Proof.
  intros Hl. apply load_true_inv in Hl as (l & r & fs & R & T & E & F & Hl).
  destruct Hl as (_ & _ & _ & HR & HT & _ & _ & ->).
  split; right; simpl.
  - apply (read_matrix_shape fs "rotation_matrix"); [lia | exact HR].
  - apply (read_matrix_shape fs "translation_matrix"); [lia | exact HT].
Qed.

Lemma stereoTransform_empty (m : Stereo) :
  Mat_empty (R_ m) = true \/ Mat_empty (T_ m) = true ->
  stereoTransform m = Ret Transform_default.
Proof.
  intros [He | He]; unfold stereoTransform; rewrite He; simpl;
    rewrite ?andb_false_r; reflexivity.
Qed.

(** C8. On every model state of the data model (R empty or 3x3, T empty
    or 3x1) [stereoTransform] returns a transform: when R and T are both
    non-empty, row [i] of the transform is row [i] of R followed by entry
    [i] of T, for [i] in 0..2; when R or T is empty it is the default
    transform. *)
Theorem stereoTransform_spec (m : Stereo) :
  extrinsics_shaped m ->
  exists t,
    stereoTransform m = Ret t /\
    (Mat_empty (R_ m) = false -> Mat_empty (T_ m) = false ->
     forall i, 0 <= i < 3 ->
       Transform_row t i = Some (Mat_row (R_ m) i ++ Mat_row (T_ m) i)) /\
    (Mat_empty (R_ m) = true \/ Mat_empty (T_ m) = true ->
     t = Transform_default).
Proof.
  intros [HR HT].
  destruct (Mat_empty (R_ m)) eqn:ER.
  { exists Transform_default. split; [apply stereoTransform_empty; now left|].
    split; [discriminate | reflexivity]. }
  destruct (Mat_empty (T_ m)) eqn:ET.
  { exists Transform_default. split; [apply stereoTransform_empty; now right|].
    split; [discriminate | reflexivity]. }
  destruct HR as [HR | (Hrr & Hrc & Hrd)]; [congruence|].
  destruct HT as [HT | (Htr & Htc & Htd)]; [congruence|].
  unfold stereoTransform. rewrite ER, ET.
  destruct (R_ m) as [rr rc rd], (T_ m) as [tr tc td]. simpl in *. subst.
  do 10 (destruct rd as [|? rd]; try discriminate).
  do 4 (destruct td as [|? td]; try discriminate).
  eexists. split; [reflexivity|]. split.
  - intros _ _ i Hi.
    assert (Hc : i = 0 \/ i = 1 \/ i = 2) by lia.
    destruct Hc as [-> | [-> | ->]]; reflexivity.
  - intros [? | ?]; discriminate.
Qed.

End StereoTransform.

(** C8, at the sample rig: the identity rotation and the translation
    [(-0.1, 0, 0)]. *)
Lemma stereoTransform_spec_witness :
  extrinsics_shaped Sample.rig /\
  exists t, @stereoTransform Sample.headers Sample.rig = Ret t /\
            Transform_row t 0 =
              Some [f64_ofZ 1; f64_ofZ 0; f64_ofZ 0; f64_frac (-1) 10].
Proof.
  assert (Hs : extrinsics_shaped Sample.rig).
  { split; right; repeat split. }
  split; [exact Hs|].
  destruct (@stereoTransform_spec Sample.headers Sample.rig Hs) as (t & Ht & Hrow & _).
  exists t. split; [exact Ht|].
  rewrite (Hrow eq_refl eq_refl 0 ltac:(lia)). reflexivity.
Defined.

(** ** The operations on concrete rigs *)

(** C5, at the sample rig saved without its pose file. *)
Lemma load_missing_pose_witness :
  exists l r,
    Sample.camera_load (left_ Sample.rig_bare) "dir" "stereo_left" Sample.files_mono = (true, l) /\
    Sample.camera_load (right_ Sample.rig_bare) "dir" "stereo_right" Sample.files_mono = (true, r) /\
    Sample.files_mono !! "dir/stereo_pose.yaml" = None /\
    @load Sample.headers Sample.rig_bare "dir" "stereo" false Sample.files_mono =
      Ret (false, mkStereo "stereo" l r Mat_new Mat_new Mat_new Mat_new).
Proof.
  exists (left_ Sample.rig), (right_ Sample.rig).
  assert (Hl : Sample.camera_load (left_ Sample.rig_bare) "dir" "stereo_left"
                 Sample.files_mono = (true, left_ Sample.rig))
    by (vm_compute; reflexivity).
  assert (Hr : Sample.camera_load (right_ Sample.rig_bare) "dir" "stereo_right"
                 Sample.files_mono = (true, right_ Sample.rig))
    by (vm_compute; reflexivity).
  assert (Hf : Sample.files_mono !! "dir/stereo_pose.yaml" = None)
    by (vm_compute; reflexivity).
  split; [exact Hl|]. split; [exact Hr|]. split; [exact Hf|].
  exact (@load_missing_pose Sample.headers Sample.rig_bare "dir" "stereo"
           Sample.files_mono _ _ Hl Hr Hf).
Defined.

(** C6 does not hold as stated: the sample rig has its extrinsics, both
    monocular loads succeed, [load(.., true)] returns true, and R, T, E
    and F are still there. *)
Lemma load_ignoring_transform_counterexample :
  @load Sample.headers Sample.rig "dir" "stereo" true Sample.files_mono =
    Ret (true, Sample.rig) /\
  Mat_empty (R_ Sample.rig) = false /\ Mat_empty (T_ Sample.rig) = false /\
  Mat_empty (E_ Sample.rig) = false /\ Mat_empty (F_ Sample.rig) = false.
Proof. repeat split; vm_compute; reflexivity. Qed.

(** C6 as amended, at the sample rig, with and without a pose file. *)
Lemma load_ignoring_transform_witness :
  @load Sample.headers Sample.rig "dir" "stereo" true Sample.files_mono =
    Ret (true, Sample.rig) /\
  @load Sample.headers Sample.rig "dir" "stereo" true Sample.files_saved =
    Ret (true, Sample.rig).
Proof.
  split.
  - apply (@load_ignoring_transform Sample.headers Sample.rig "dir" "stereo"
             Sample.files_mono); vm_compute; reflexivity.
  - apply (@load_ignoring_transform Sample.headers Sample.rig "dir" "stereo"
             Sample.files_saved); vm_compute; reflexivity.
Defined.

(** C4 does not hold as stated: on a rig without extrinsics both monocular
    saves succeed and [save(directory, false)] returns false. *)
Lemma save_without_extrinsics_counterexample :
  exists f1 f2,
    Sample.camera_save (left_ Sample.rig_bare) "dir" ∅ = (true, f1) /\
    Sample.camera_save (right_ Sample.rig_bare) "dir" f1 = (true, f2) /\
    Mat_empty (R_ Sample.rig_bare) = true /\
    @save Sample.headers Sample.rig_bare "dir" false ∅ = (false, f2) /\
    f2 !! "dir/stereo_pose.yaml" = None.
Proof.
  exists (snd (Sample.camera_save (left_ Sample.rig_bare) "dir" ∅)).
  exists Sample.files_mono.
  repeat split; vm_compute; reflexivity.
Qed.

(** C4 as amended, at the rig without extrinsics. *)
Lemma save_without_extrinsics_witness :
  @save Sample.headers Sample.rig_bare "dir" false ∅ = (false, Sample.files_mono).
Proof.
  apply (@save_without_extrinsics Sample.headers Sample.rig_bare "dir" ∅
           (snd (Sample.camera_save (left_ Sample.rig_bare) "dir" ∅))
           Sample.files_mono).
  - vm_compute; reflexivity.
  - vm_compute; reflexivity.
  - right; left; reflexivity.
Defined.

(** C7 fails on the code. The pose file written by [save] stores the
    string [stereo] under [camera_name]; [load] reads that node through
    [(int)], gets [0x7fffffff], and leaves the one-character name made of
    its low byte instead of [stereo]. *)
Theorem load_camera_name_lost :
  exists fs m',
    Sample.files_saved !! "dir/stereo_pose.yaml" = Some fs /\
    FileNode_get fs "camera_name" = FN_str "stereo" /\
    @load Sample.headers Sample.rig_bare "dir" "stereo" false Sample.files_saved =
      Ret (true, m') /\
    name_ m' = string_assign_char INT_MAX /\
    name_ m' <> "stereo" /\
    R_ m' = R_ Sample.rig /\ T_ m' = T_ Sample.rig.
Proof.
  exists (@pose_document Sample.headers Sample.rig).
  exists (@set_name Sample.headers Sample.rig (string_assign_char INT_MAX)).
  repeat split; try (vm_compute; reflexivity).
  vm_compute. discriminate.
Qed.

(** C10 does not hold as stated. With [cx_left = 320.5] and
    [cx_right = 320.4] the model is valid and the two differ; the float
    [cx_left - cx_right] is not zero and passes the guard, but the divisor
    [disparity + cx_right - cx_left] is about [1.5e-9], not zero, and the
    depth is finite.  The next float below gives a negative divisor. *)
Lemma computeDepth_zero_divisor_counterexample :
  let m := Sample.rig_offset in
  let d := to_float (@ssub Sample.headers (Sample.cam_cx (left_ m))
                                            (Sample.cam_cx (right_ m))) in
  @isValid Sample.headers m = true /\
  SFeqb (Sample.cam_cx (right_ m)) (Sample.cam_cx (left_ m)) = false /\
  SFeqb d f32_zero = false /\
  @depth_divisor Sample.headers m d = S754_finite false 7205649452630016 (-82) /\
  SFis_zero (@depth_divisor Sample.headers m d) = false /\
  @computeDepth Sample.headers m d = Ret (S754_finite false 16384250 11) /\
  @depth_divisor Sample.headers m (SFpred f32_prec f32_emax d) =
    S754_finite true 7205786891583488 (-80).
Proof. repeat split; vm_compute; reflexivity. Qed.

(** C10 as amended, with [cx_left = 320], [cx_right = 321] and the
    disparity [-1]: the divisor is zero and the depth is infinite. *)
Lemma computeDepth_zero_divisor_witness :
  @isValid Sample.headers Sample.rig_shift = true /\
  SFis_zero (f32_ofZ (-1)) = false /\
  SFis_zero (@depth_divisor Sample.headers Sample.rig_shift (f32_ofZ (-1))) = true /\
  @computeDepth Sample.headers Sample.rig_shift (f32_ofZ (-1)) =
    Ret (S754_infinity false).
Proof.
  split; [reflexivity|]. split; [reflexivity|]. split; [reflexivity|].
  destruct (@computeDepth_zero_divisor Sample.headers Sample.rig_shift (f32_ofZ (-1))
              eq_refl eq_refl eq_refl) as (_ & depth & -> & -> & _).
  vm_compute. reflexivity.
Defined.

(** * Further properties of the persistence and conversion code *)

(** ** Strings and documents *)



Lemma read_doubles_reals (v : list spec_float) :
  read_doubles (map FN_real v) = Ret v.
Proof.
  induction v as [|x v IH]; [reflexivity|].
  simpl. rewrite IH. reflexivity.
Qed.

Lemma Mat_is_vector (M : Mat) (r c : Z) : Mat_is M r c -> Mat_to_vector M = data M.
Proof.
  intros (Hr & Hc & Hd). unfold Mat_to_vector. rewrite Hr, Hc.
  apply take_ge. lia.
Qed.

Lemma Mat_is_nonempty (M : Mat) (r c : Z) :
  0 < r * c -> Mat_is M r c -> Mat_empty M = false.
Proof.
  intros Hrc (Hr & Hc & Hd). unfold Mat_empty.
  destruct (data M) as [|x d]; [simpl in Hd; lia|].
  rewrite Hr, Hc. apply Z.eqb_neq. lia.
Qed.

Section Blocks.

Context {H : Headers}.

(** A block written by [save] and holding a matrix of the asserted shape is
    read back as that matrix. *)
Lemma read_matrix_written (fs : FileNode) (key : string) (M : Mat) (r c : Z) :
  0 <= r * c < 2^31 ->
  FileNode_get fs key = matrix_node M ->
  Mat_is M r c ->
  read_matrix fs key r c = Ret M.
Proof.
  intros Hrc Hget HM. pose proof (Mat_is_vector M r c HM) as Hv.
  destruct HM as (Hr & Hc & Hd).
  unfold read_matrix. rewrite Hget. simpl. rewrite read_doubles_reals, Hv. simpl.
  rewrite Hr, Hc, Hd, Z2Nat.id, Z.eqb_refl by lia. simpl.
  rewrite !Z.eqb_refl. simpl.
  unfold Mat_clone_of. rewrite take_ge by lia.
  destruct M; simpl in *; subst; reflexivity.
Qed.

(** A block written by [save] from a matrix of another shape makes the
    assertions fail. *)
Lemma read_matrix_mismatch (fs : FileNode) (key : string) (M : Mat) (r c : Z) :
  FileNode_get fs key = matrix_node M ->
  rows M <> r \/ cols M <> c ->
  read_matrix fs key r c = Fatal.
Proof.
  intros Hget Hne. unfold read_matrix. rewrite Hget. simpl.
  rewrite read_doubles_reals. simpl.
  destruct (wrap32 _ =? wrap32 _); [|reflexivity]. simpl.
  replace ((rows M =? r) && (cols M =? c)) with false; [reflexivity|].
  symmetry. apply andb_false_iff.
  destruct Hne as [Hne | Hne]; [left | right]; now apply Z.eqb_neq.
Qed.

(** A block that the file does not hold makes the shape assertion fail. *)
Lemma read_matrix_missing (fs : FileNode) (key : string) (r c : Z) :
  FileNode_get fs key = FN_none -> r <> 0 ->
  read_matrix fs key r c = Fatal.
Proof.
  intros Hget Hr. unfold read_matrix. rewrite Hget. simpl.
  destruct r; [contradiction | reflexivity | reflexivity].
Qed.

(** [load] once both monocular loads have succeeded and the pose file is
    there: the four blocks are read in turn. *)
Lemma load_pose_present (m : Stereo) (directory cameraName : string)
    (files : gmap string FileNode) (l r : CameraModel) (fs : FileNode) :
  cm_load (left_ m) directory (cameraName +:+ "_left") files = (true, l) ->
  cm_load (right_ m) directory (cameraName +:+ "_right") files = (true, r) ->
  files !! pose_path directory cameraName = Some fs ->
  load m directory cameraName false files =
    (R ← read_matrix fs "rotation_matrix" 3 3;
     T ← read_matrix fs "translation_matrix" 3 1;
     E ← read_matrix fs "essential_matrix" 3 3;
     F ← read_matrix fs "fundamental_matrix" 3 3;
     Ret (true,
          mkStereo (string_assign_char (FileNode_int (FileNode_get fs "camera_name")))
                   l r R T E F)).
Proof.
  intros Hl Hr Hf. unfold load. simpl. rewrite Hl. simpl. rewrite Hr. simpl.
  rewrite Hf.
  destruct (read_matrix fs "rotation_matrix" 3 3); [|reflexivity].
  destruct (read_matrix fs "translation_matrix" 3 1); [|reflexivity].
  destruct (read_matrix fs "essential_matrix" 3 3); [|reflexivity].
  destruct (read_matrix fs "fundamental_matrix" 3 3); reflexivity.
Qed.

(** What a successful [save] with the stereo transform has done. *)
Lemma save_true_inv (m : Stereo) (directory : string)
    (files files' : gmap string FileNode) :
  save m directory false files = (true, files') ->
  exists f1 f2,
    cm_save (left_ m) directory files = (true, f1) /\
    cm_save (right_ m) directory f1 = (true, f2) /\
    string_empty (name_ m) = false /\
    Mat_empty (R_ m) = false /\ Mat_empty (T_ m) = false /\
    files' = <[pose_path directory (name_ m) := pose_document m]> f2.
Proof.
  unfold save.
  destruct (cm_save (left_ m) directory files) as [[|] f1] eqn:Hl; [|discriminate].
  destruct (cm_save (right_ m) directory f1) as [[|] f2] eqn:Hr; [|discriminate].
  destruct (string_empty (pose_path _ _)); simpl; [discriminate|].
  destruct (string_empty (name_ m)) eqn:Hn; simpl; [discriminate|].
  destruct (Mat_empty (R_ m)) eqn:HR; simpl; [discriminate|].
  destruct (Mat_empty (T_ m)) eqn:HT; simpl; [discriminate|].
  intros [= <-]. exists f1, f2. repeat split; assumption.
Qed.

End Blocks.

(** ** Saving *)

Section Saving.

Context {H : Headers}.

Lemma pose_path_nonempty (directory name : string) :
  string_empty (pose_path directory name) = false.
Proof. unfold pose_path. destruct directory; reflexivity. Qed.


(** Away from the pose file, saving with or without the stereo transform
    leaves the same store. *)
Lemma save_frame (m : Stereo) (directory p : string) (files : gmap string FileNode) :
  p <> pose_path directory (name_ m) ->
  snd (save m directory false files) !! p = snd (save m directory true files) !! p.
Proof.
  intros Hp. unfold save.
  destruct (cm_save (left_ m) directory files) as [[|] f1]; [|reflexivity].
  destruct (cm_save (right_ m) directory f1) as [[|] f2]; [|reflexivity].
  destruct (_ && _); [|reflexivity].
  simpl. apply lookup_insert_ne. congruence.
Qed.

(** X1. [save] returns true exactly when the left save succeeds, the right
    save (run on the store the left one produced) succeeds, and either the
    stereo transform is ignored or the name, R and T are all non-empty.  E
    and F play no part. *)
Theorem save_succeeds_iff (m : Stereo) (directory : string)
    (ignoreStereoTransform : bool) (files : gmap string FileNode) :
  fst (save m directory ignoreStereoTransform files) = true <->
  fst (cm_save (left_ m) directory files) = true /\
  fst (cm_save (right_ m) directory (snd (cm_save (left_ m) directory files))) = true /\
  (ignoreStereoTransform = true \/
   (string_empty (name_ m) = false /\
    Mat_empty (R_ m) = false /\ Mat_empty (T_ m) = false)).
Proof.
  unfold save.
  destruct (cm_save (left_ m) directory files) as [[|] f1]; simpl;
    [|intuition discriminate].
  destruct (cm_save (right_ m) directory f1) as [[|] f2]; simpl;
    [|intuition discriminate].
  destruct ignoreStereoTransform; simpl; [intuition|].
  rewrite pose_path_nonempty. simpl.
  destruct (string_empty (name_ m)), (Mat_empty (R_ m)), (Mat_empty (T_ m));
    simpl; intuition discriminate.
Qed.

(** X2. Saving with the stereo transform changes the store, beyond what
    the two monocular saves do, at the pose file only: every other path
    reads the same as after a save that ignores the transform; when the
    save returns true the pose file holds the pose document, whose
    [camera_name] is the model's name as a string; when it returns false
    the store is the one of the ignoring save. *)
Theorem save_writes_only_pose (m : Stereo) (directory : string)
    (files : gmap string FileNode) :
  (forall p, p <> pose_path directory (name_ m) ->
     snd (save m directory false files) !! p =
     snd (save m directory true files) !! p) /\
  (fst (save m directory false files) = true ->
     snd (save m directory false files) !! pose_path directory (name_ m) =
       Some (pose_document m) /\
     FileNode_get (pose_document m) "camera_name" = FN_str (name_ m)) /\
  (fst (save m directory false files) = false ->
     snd (save m directory false files) = snd (save m directory true files)).
Proof.
  split; [intros p Hp; now apply save_frame|].
  unfold save.
  destruct (cm_save (left_ m) directory files) as [[|] f1]; simpl;
    [|split; [discriminate | reflexivity]].
  destruct (cm_save (right_ m) directory f1) as [[|] f2]; simpl;
    [|split; [discriminate | reflexivity]].
  destruct (_ && _); simpl; split; try discriminate; try reflexivity.
  intros _. split; [apply lookup_insert_eq | reflexivity].
Qed.


End Saving.

(** ** Loading *)

Section Loading.

Context {H : Headers}.

Lemma pose_document_blocks (m : Stereo) :
  FileNode_get (pose_document m) "rotation_matrix" = matrix_node (R_ m) /\
  FileNode_get (pose_document m) "translation_matrix" = matrix_node (T_ m) /\
  FileNode_get (pose_document m) "essential_matrix" = matrix_node (E_ m) /\
  FileNode_get (pose_document m) "fundamental_matrix" = matrix_node (F_ m).
Proof. repeat split. Qed.

(** X4. Round trip. After [save(directory, false)] has returned true for a
    model whose four matrices have the asserted shapes, [load] from the
    same directory under the model's name (the two monocular loads
    succeeding) returns true and brings back R, T, E and F entry for
    entry; the name it leaves is the single character read through
    [(int)]. *)
Theorem save_load_roundtrip (m m0 : Stereo) (directory : string)
    (files files' : gmap string FileNode) (l r : CameraModel) :
  calibrated m ->
  save m directory false files = (true, files') ->
  cm_load (left_ m0) directory (name_ m +:+ "_left") files' = (true, l) ->
  cm_load (right_ m0) directory (name_ m +:+ "_right") files' = (true, r) ->
  load m0 directory (name_ m) false files' =
    Ret (true, mkStereo (string_assign_char INT_MAX) l r
                        (R_ m) (T_ m) (E_ m) (F_ m)).
Proof.
  intros (HR & HT & HE & HF) Hs Hl Hr.
  apply save_true_inv in Hs as (f1 & f2 & _ & _ & _ & _ & _ & ->).
  rewrite (load_pose_present m0 directory (name_ m) _ l r (pose_document m) Hl Hr)
    by apply lookup_insert_eq.
  destruct (pose_document_blocks m) as (GR & GT & GE & GF).
  rewrite (read_matrix_written _ _ (R_ m) 3 3 ltac:(lia) GR HR). simpl.
  rewrite (read_matrix_written _ _ (T_ m) 3 1 ltac:(lia) GT HT). simpl.
  rewrite (read_matrix_written _ _ (E_ m) 3 3 ltac:(lia) GE HE). simpl.
  rewrite (read_matrix_written _ _ (F_ m) 3 3 ltac:(lia) GF HF). simpl.
  reflexivity.
Qed.

(** X5. [save] checks only the name, R and T, [load] asserts the shape of
    all four matrices: after a successful save of a model one of whose
    matrices has not the asserted row and column counts (an empty E or F,
    say), loading the saved files aborts on an assertion instead of
    returning. *)
Theorem load_saved_misshaped (m m0 : Stereo) (directory : string)
    (files files' : gmap string FileNode) (l r : CameraModel) :
  asserted_shapes m = false ->
  save m directory false files = (true, files') ->
  cm_load (left_ m0) directory (name_ m +:+ "_left") files' = (true, l) ->
  cm_load (right_ m0) directory (name_ m +:+ "_right") files' = (true, r) ->
  load m0 directory (name_ m) false files' = Fatal.
Proof.
  intros Hsh Hs Hl Hr.
  apply save_true_inv in Hs as (f1 & f2 & _ & _ & _ & _ & _ & ->).
  rewrite (load_pose_present m0 directory (name_ m) _ l r (pose_document m) Hl Hr)
    by apply lookup_insert_eq.
  destruct (pose_document_blocks m) as (GR & GT & GE & GF).
  unfold asserted_shapes in Hsh.
  destruct (shape_is (R_ m) 3 3) eqn:SR.
  2:{ rewrite (read_matrix_mismatch _ _ (R_ m) 3 3 GR); [reflexivity|].
      unfold shape_is in SR. apply andb_false_iff in SR as [S|S];
        apply Z.eqb_neq in S; auto. }
  destruct (read_matrix _ "rotation_matrix" 3 3); [simpl|reflexivity].
  destruct (shape_is (T_ m) 3 1) eqn:ST.
  2:{ rewrite (read_matrix_mismatch _ _ (T_ m) 3 1 GT); [reflexivity|].
      unfold shape_is in ST. apply andb_false_iff in ST as [S|S];
        apply Z.eqb_neq in S; auto. }
  destruct (read_matrix _ "translation_matrix" 3 1); [simpl|reflexivity].
  destruct (shape_is (E_ m) 3 3) eqn:SE.
  2:{ rewrite (read_matrix_mismatch _ _ (E_ m) 3 3 GE); [reflexivity|].
      unfold shape_is in SE. apply andb_false_iff in SE as [S|S];
        apply Z.eqb_neq in S; auto. }
  destruct (read_matrix _ "essential_matrix" 3 3); [simpl|reflexivity].
  destruct (shape_is (F_ m) 3 3) eqn:SF; [discriminate|].
  rewrite (read_matrix_mismatch _ _ (F_ m) 3 3 GF); [reflexivity|].
  unfold shape_is in SF. apply andb_false_iff in SF as [S|S];
    apply Z.eqb_neq in S; auto.
Qed.

(** X6. A pose file that exists but lacks one of the four matrix blocks
    makes [load] abort on an assertion: the absent block reads as 0 rows. *)
Theorem load_missing_block (m : Stereo) (directory cameraName : string)
    (files : gmap string FileNode) (l r : CameraModel) (fs : FileNode) :
  cm_load (left_ m) directory (cameraName +:+ "_left") files = (true, l) ->
  cm_load (right_ m) directory (cameraName +:+ "_right") files = (true, r) ->
  files !! pose_path directory cameraName = Some fs ->
  FileNode_get fs "rotation_matrix" = FN_none \/
  FileNode_get fs "translation_matrix" = FN_none \/
  FileNode_get fs "essential_matrix" = FN_none \/
  FileNode_get fs "fundamental_matrix" = FN_none ->
  load m directory cameraName false files = Fatal.
Proof.
  intros Hl Hr Hf Hmiss.
  rewrite (load_pose_present m directory cameraName files l r fs Hl Hr Hf).
  destruct Hmiss as [G | [G | [G | G]]].
  - rewrite (read_matrix_missing fs _ 3 3 G) by lia. reflexivity.
  - destruct (read_matrix fs "rotation_matrix" 3 3); [simpl|reflexivity].
    rewrite (read_matrix_missing fs _ 3 1 G) by lia. reflexivity.
  - destruct (read_matrix fs "rotation_matrix" 3 3); [simpl|reflexivity].
    destruct (read_matrix fs "translation_matrix" 3 1); [simpl|reflexivity].
    rewrite (read_matrix_missing fs _ 3 3 G) by lia. reflexivity.
  - destruct (read_matrix fs "rotation_matrix" 3 3); [simpl|reflexivity].
    destruct (read_matrix fs "translation_matrix" 3 1); [simpl|reflexivity].
    destruct (read_matrix fs "essential_matrix" 3 3); [simpl|reflexivity].
    rewrite (read_matrix_missing fs _ 3 3 G) by lia. reflexivity.
Qed.

(** X7. [load] returns false for missing files only: exactly when the left
    load fails, or the right load fails, or the stereo transform is wanted
    and the pose file does not exist.  A pose file that exists never makes
    it return false. *)
Theorem load_false_iff (m : Stereo) (directory cameraName : string)
    (ignoreStereoTransform : bool) (files : gmap string FileNode) :
  (exists m', load m directory cameraName ignoreStereoTransform files = Ret (false, m')) <->
  fst (cm_load (left_ m) directory (cameraName +:+ "_left") files) = false \/
  fst (cm_load (right_ m) directory (cameraName +:+ "_right") files) = false \/
  (ignoreStereoTransform = false /\
   files !! pose_path directory cameraName = None).
Proof.
  unfold load. simpl.
  destruct (cm_load (left_ m) _ _ _) as [[|] l]; simpl;
    [|split; [auto | intros _; eexists; reflexivity]].
  destruct (cm_load (right_ m) _ _ _) as [[|] r]; simpl;
    [|split; [auto | intros _; eexists; reflexivity]].
  destruct ignoreStereoTransform.
  { split; [intros [m' [=]] | intros [? | [? | [? _]]]; discriminate]. }
  destruct (files !! _) as [fs|].
  - split; [|intros [? | [? | [_ ?]]]; discriminate].
    intros [m' Hm]. exfalso. revert Hm.
    destruct (read_matrix fs "rotation_matrix" 3 3); [simpl|discriminate].
    destruct (read_matrix fs "translation_matrix" 3 1); [simpl|discriminate].
    destruct (read_matrix fs "essential_matrix" 3 3); [simpl|discriminate].
    destruct (read_matrix fs "fundamental_matrix" 3 3); discriminate.
  - split; [auto | intros _; eexists; reflexivity].
Qed.

End Loading.

(** ** Loading, then using the model *)

Section Composition.

Context {H : Headers}.

Lemma stereoTransform_calibrated (m : Stereo) :
  Mat_is (R_ m) 3 3 -> Mat_is (T_ m) 3 1 ->
  exists t,
    stereoTransform m = Ret t /\ t <> Transform_default /\
    forall i, 0 <= i < 3 ->
      Transform_row t i = Some (Mat_row (R_ m) i ++ Mat_row (T_ m) i).
Proof.
  intros HR HT.
  pose proof (Mat_is_nonempty _ 3 3 ltac:(lia) HR) as ER.
  pose proof (Mat_is_nonempty _ 3 1 ltac:(lia) HT) as ET.
  destruct HR as (Hrr & Hrc & Hrd), HT as (Htr & Htc & Htd).
  unfold stereoTransform. rewrite ER, ET.
  destruct (R_ m) as [rr rc rd], (T_ m) as [tr tc td]. simpl in *. subst.
  do 10 (destruct rd as [|? rd]; try discriminate).
  do 4 (destruct td as [|? td]; try discriminate).
  eexists. split; [reflexivity|]. split; [discriminate|].
  intros i Hi.
  assert (Hc : i = 0 \/ i = 1 \/ i = 2) by lia.
  destruct Hc as [-> | [-> | ->]]; reflexivity.
Qed.

(** X8. After a [load] with the stereo transform that returned true,
    [stereoTransform] does not abort and does not return the default
    transform: it returns the transform whose rows are the rows of the
    loaded R followed by the entries of the loaded T. *)
Theorem load_then_stereoTransform (m m' : Stereo) (directory cameraName : string)
    (files : gmap string FileNode) :
  load m directory cameraName false files = Ret (true, m') ->
  exists t,
    stereoTransform m' = Ret t /\ t <> Transform_default /\
    forall i, 0 <= i < 3 ->
      Transform_row t i = Some (Mat_row (R_ m') i ++ Mat_row (T_ m') i).
Proof.
  intros Hl. apply load_true_inv in Hl as (l & r & fs & R & T & E & F & Hl).
  destruct Hl as (_ & _ & _ & HR & HT & _ & _ & ->).
  apply stereoTransform_calibrated; simpl.
  - apply (read_matrix_shape fs "rotation_matrix"); [lia | exact HR].
  - apply (read_matrix_shape fs "translation_matrix"); [lia | exact HT].
Qed.

End Composition.

(** ** Depth and disparity at the ends of the float range *)

Section Extremes.

Context {H : Headers}.

(** X9. The zero guards do not catch a NaN: on a valid model a NaN
    disparity gives a NaN depth and a NaN depth gives a NaN disparity. *)
Theorem conversions_propagate_nan (m : Stereo) :
  isValid m = true ->
  computeDepth m S754_nan = Ret S754_nan /\
  computeDisparity m S754_nan = Ret S754_nan.
Proof.
  intros Hv. unfold computeDepth, computeDisparity, depth_divisor. rewrite Hv.
  simpl. split.
  - unfold sdiv. destruct (smul _ _); reflexivity.
  - unfold sdiv. destruct (smul _ _); reflexivity.
Qed.

(** X10. On a valid model whose principal points and product
    [baseline * fx_left] are numbers (no infinity, no NaN), an infinite
    disparity passes the guard and gives a depth that is a zero. *)
Theorem computeDepth_at_infinity (m : Stereo) (s : bool) :
  isValid m = true ->
  SFis_number (cm_cx (left_ m)) = true ->
  SFis_number (cm_cx (right_ m)) = true ->
  SFis_number (smul (baseline m) (cm_fx (left_ m))) = true ->
  exists depth,
    computeDepth m (S754_infinity s) = Ret depth /\ SFis_zero depth = true.
Proof.
  intros Hv Hl Hr Hb. unfold computeDepth, depth_divisor. rewrite Hv.
  unfold sdiv, ssub, sadd.
  destruct (cm_cx (right_ m)); try discriminate;
    destruct (cm_cx (left_ m)); try discriminate;
    destruct (smul _ _); try discriminate;
    destruct s; eexists; split; reflexivity.
Qed.

(** X11. On a valid model whose right principal point is a nonzero number
    and whose product [baseline * fx_left] is a number, an infinite depth
    gives the disparity [cx_left - cx_right] (the sum of [- cx_right] and
    [cx_left], narrowed to [float]), not zero. *)
Theorem computeDisparity_at_infinity (m : Stereo) (s : bool) :
  isValid m = true ->
  SFis_number (cm_cx (right_ m)) = true ->
  SFis_zero (cm_cx (right_ m)) = false ->
  SFis_number (smul (baseline m) (cm_fx (left_ m))) = true ->
  computeDisparity m (S754_infinity s) =
    Ret (to_float (sadd (SFopp (cm_cx (right_ m))) (cm_cx (left_ m)))).
Proof.
  intros Hv Hr Hnz Hb. unfold computeDisparity. rewrite Hv.
  unfold sdiv, ssub.
  destruct (cm_cx (right_ m)); try discriminate;
    destruct (smul _ _); try discriminate; destruct s; reflexivity.
Qed.

End Extremes.

(** ** Renaming, and the state a failed load leaves *)

Section Renaming.

Context {H : Headers}.

(** X12. [setName] renames the model and hands [name_left] and
    [name_right] to the two cameras; a later [save] that returns true
    writes the pose file of the new name, with the new name under
    [camera_name] and the matrix blocks of the model as it was. *)
Theorem setName_then_save (m : Stereo) (name directory : string)
    (files : gmap string FileNode) :
  fst (save (setName m name) directory false files) = true ->
  left_ (setName m name) = cm_setName (left_ m) (name +:+ "_left") /\
  right_ (setName m name) = cm_setName (right_ m) (name +:+ "_right") /\
  exists fs,
    snd (save (setName m name) directory false files)
      !! (directory +:+ "/" +:+ name +:+ "_pose.yaml") = Some fs /\
    FileNode_get fs "camera_name" = FN_str name /\
    FileNode_get fs "rotation_matrix" = matrix_node (R_ m) /\
    FileNode_get fs "translation_matrix" = matrix_node (T_ m) /\
    FileNode_get fs "essential_matrix" = matrix_node (E_ m) /\
    FileNode_get fs "fundamental_matrix" = matrix_node (F_ m).
Proof.
  intros Hs. split; [reflexivity|]. split; [reflexivity|].
  destruct (save (setName m name) directory false files) as [ok files'] eqn:Hsave.
  simpl in Hs. subst ok.
  apply save_true_inv in Hsave as (f1 & f2 & _ & _ & _ & _ & _ & ->).
  exists (pose_document (setName m name)). split.
  - simpl. apply lookup_insert_eq.
  - repeat split.
Qed.

(** X13. A [load] that returns false leaves the model named [cameraName],
    with E and F as they were, and with R and T either both as they were
    (a monocular load failed) or both empty (the pose file is missing):
    never one without the other. *)
Theorem load_false_state (m m' : Stereo) (directory cameraName : string)
    (ignoreStereoTransform : bool) (files : gmap string FileNode) :
  load m directory cameraName ignoreStereoTransform files = Ret (false, m') ->
  name_ m' = cameraName /\ E_ m' = E_ m /\ F_ m' = F_ m /\
  ((R_ m' = R_ m /\ T_ m' = T_ m) \/ (R_ m' = Mat_new /\ T_ m' = Mat_new)).
Proof.
  unfold load. simpl.
  destruct (cm_load (left_ m) _ _ _) as [[|] l];
    [|intros [= <-]; simpl; intuition].
  destruct (cm_load (right_ m) _ _ _) as [[|] r];
    [|intros [= <-]; simpl; intuition].
  destruct ignoreStereoTransform; [discriminate|].
  destruct (files !! _) as [fs|]; [|intros [= <-]; simpl; intuition].
  destruct (read_matrix fs "rotation_matrix" 3 3); [simpl|discriminate].
  destruct (read_matrix fs "translation_matrix" 3 1); [simpl|discriminate].
  destruct (read_matrix fs "essential_matrix" 3 3); [simpl|discriminate].
  destruct (read_matrix fs "fundamental_matrix" 3 3); discriminate.
Qed.

End Renaming.

(** ** The further properties on concrete rigs *)

Lemma sample_save_rig :
  @save Sample.headers Sample.rig "dir" false ∅ = (true, Sample.files_saved).
Proof. vm_compute. reflexivity. Qed.

Lemma sample_save_rig_no_E :
  @save Sample.headers Sample.rig_no_E "dir" false ∅ = (true, Sample.files_no_E).
Proof. vm_compute. reflexivity. Qed.

Lemma sample_load_left (files : gmap string FileNode) :
  files !! "dir/stereo_left.yaml" = Sample.files_mono !! "dir/stereo_left.yaml" ->
  Sample.camera_load (left_ Sample.rig_bare) "dir" "stereo_left" files =
    (true, left_ Sample.rig).
Proof.
  intros Hf. unfold Sample.camera_load.
  change (Sample.camera_path "dir" "stereo_left") with "dir/stereo_left.yaml".
  rewrite Hf. vm_compute. reflexivity.
Qed.

Lemma sample_load_right (files : gmap string FileNode) :
  files !! "dir/stereo_right.yaml" = Sample.files_mono !! "dir/stereo_right.yaml" ->
  Sample.camera_load (right_ Sample.rig_bare) "dir" "stereo_right" files =
    (true, right_ Sample.rig).
Proof.
  intros Hf. unfold Sample.camera_load.
  change (Sample.camera_path "dir" "stereo_right") with "dir/stereo_right.yaml".
  rewrite Hf. vm_compute. reflexivity.
Qed.

Lemma sample_load_saved :
  @load Sample.headers Sample.rig_bare "dir" "stereo" false Sample.files_saved =
    Ret (true, mkStereo (string_assign_char INT_MAX)
                        (left_ Sample.rig) (right_ Sample.rig)
                        Sample.R0 Sample.T0 Sample.R0 Sample.R0).
Proof. vm_compute. reflexivity. Qed.

Lemma sample_calibrated : calibrated Sample.rig.
Proof. repeat split. Qed.

(** X2, at the sample rig: the left camera file is the same with and
    without the stereo transform, and the pose file holds the document. *)
Lemma save_writes_only_pose_witness :
  snd (@save Sample.headers Sample.rig "dir" false ∅) !! "dir/stereo_left.yaml" =
    snd (@save Sample.headers Sample.rig "dir" true ∅) !! "dir/stereo_left.yaml" /\
  snd (@save Sample.headers Sample.rig "dir" false ∅) !! "dir/stereo_pose.yaml" =
    Some (@pose_document Sample.headers Sample.rig).
Proof.
  destruct (@save_writes_only_pose Sample.headers Sample.rig "dir" ∅)
    as (Hframe & Hpose & _).
  split.
  - apply Hframe. vm_compute. discriminate.
  - apply Hpose. rewrite sample_save_rig. reflexivity.
Defined.


(** X4, at the sample rig: saved, then loaded into a rig without
    extrinsics. *)
Lemma save_load_roundtrip_witness :
  calibrated Sample.rig /\
  @load Sample.headers Sample.rig_bare "dir" "stereo" false Sample.files_saved =
    Ret (true, mkStereo (string_assign_char INT_MAX)
                        (left_ Sample.rig) (right_ Sample.rig)
                        Sample.R0 Sample.T0 Sample.R0 Sample.R0).
Proof.
  split; [exact sample_calibrated|].
  apply (@save_load_roundtrip Sample.headers Sample.rig Sample.rig_bare "dir" ∅
           Sample.files_saved _ _ sample_calibrated sample_save_rig).
  - apply sample_load_left. vm_compute. reflexivity.
  - apply sample_load_right. vm_compute. reflexivity.
Defined.

(** X5, at the sample rig without its essential matrix: the save returns
    true and the load aborts. *)
Lemma load_saved_misshaped_witness :
  asserted_shapes Sample.rig_no_E = false /\
  @save Sample.headers Sample.rig_no_E "dir" false ∅ = (true, Sample.files_no_E) /\
  @load Sample.headers Sample.rig_bare "dir" "stereo" false Sample.files_no_E = Fatal.
Proof.
  split; [reflexivity|]. split; [exact sample_save_rig_no_E|].
  apply (@load_saved_misshaped Sample.headers Sample.rig_no_E Sample.rig_bare "dir" ∅
           Sample.files_no_E (left_ Sample.rig) (right_ Sample.rig)
           eq_refl sample_save_rig_no_E).
  - apply sample_load_left. vm_compute. reflexivity.
  - apply sample_load_right. vm_compute. reflexivity.
Defined.

(** X6, at a pose file that holds the camera name and no block. *)
Lemma load_missing_block_witness :
  Sample.files_blank !! "dir/stereo_pose.yaml" =
    Some (FN_map [("camera_name", FN_str "stereo")]) /\
  @load Sample.headers Sample.rig_bare "dir" "stereo" false Sample.files_blank = Fatal.
Proof.
  assert (Hf : Sample.files_blank !! "dir/stereo_pose.yaml" =
               Some (FN_map [("camera_name", FN_str "stereo")]))
    by (vm_compute; reflexivity).
  split; [exact Hf|].
  apply (@load_missing_block Sample.headers Sample.rig_bare "dir" "stereo"
           Sample.files_blank (left_ Sample.rig) (right_ Sample.rig)
           (FN_map [("camera_name", FN_str "stereo")])).
  - apply sample_load_left. vm_compute. reflexivity.
  - apply sample_load_right. vm_compute. reflexivity.
  - exact Hf.
  - left. reflexivity.
Defined.

(** X8, at the sample rig loaded from its saved files: row 0 of the
    transform is [1 0 0 -0.1]. *)
Lemma load_then_stereoTransform_witness :
  exists m' t,
    @load Sample.headers Sample.rig_bare "dir" "stereo" false Sample.files_saved =
      Ret (true, m') /\
    @stereoTransform Sample.headers m' = Ret t /\
    Transform_row t 0 = Some [f64_ofZ 1; f64_ofZ 0; f64_ofZ 0; f64_frac (-1) 10].
Proof.
  pose proof sample_load_saved as Hl.
  destruct (@load_then_stereoTransform Sample.headers _ _ _ _ _ Hl)
    as (t & Ht & _ & Hrow).
  eexists. exists t. split; [exact Hl|]. split; [exact Ht|].
  rewrite (Hrow 0 ltac:(lia)). reflexivity.
Defined.

(** X9, X10 and X11 at the rig of the spec's example. *)
Lemma conversions_propagate_nan_witness :
  @computeDepth Sample.headers Sample.rig S754_nan = Ret S754_nan.
Proof.
  exact (proj1 (@conversions_propagate_nan Sample.headers Sample.rig eq_refl)).
Defined.

Lemma computeDepth_at_infinity_witness :
  exists depth,
    @computeDepth Sample.headers Sample.rig (S754_infinity false) = Ret depth /\
    SFis_zero depth = true.
Proof.
  exact (@computeDepth_at_infinity Sample.headers Sample.rig false
           eq_refl eq_refl eq_refl eq_refl).
Defined.

Lemma computeDisparity_at_infinity_witness :
  @computeDisparity Sample.headers Sample.rig_shift (S754_infinity false) =
    Ret (f32_ofZ (-1)).
Proof.
  rewrite (@computeDisparity_at_infinity Sample.headers Sample.rig_shift false
             eq_refl eq_refl eq_refl eq_refl).
  vm_compute. reflexivity.
Defined.

(** X12, at the sample rig renamed to [other]. *)
Lemma setName_then_save_witness :
  exists fs,
    snd (@save Sample.headers (@setName Sample.headers Sample.rig "other") "dir" false ∅)
      !! "dir/other_pose.yaml" = Some fs /\
    FileNode_get fs "camera_name" = FN_str "other".
Proof.
  destruct (@setName_then_save Sample.headers Sample.rig "other" "dir" ∅)
    as (_ & _ & fs & Hfs & Hname & _).
  - vm_compute. reflexivity.
  - exists fs. split; [exact Hfs | exact Hname].
Defined.

(** X13, at the sample rig loaded from a store without pose file. *)
Lemma load_false_state_witness :
  exists m',
    @load Sample.headers Sample.rig "dir" "stereo" false Sample.files_mono =
      Ret (false, m') /\
    name_ m' = "stereo" /\ E_ m' = Sample.R0 /\ F_ m' = Sample.R0.
Proof.
  assert (Hl : @load Sample.headers Sample.rig "dir" "stereo" false Sample.files_mono =
               Ret (false, mkStereo "stereo" (left_ Sample.rig) (right_ Sample.rig)
                                    Mat_new Mat_new Sample.R0 Sample.R0))
    by (vm_compute; reflexivity).
  eexists. split; [exact Hl|].
  destruct (@load_false_state Sample.headers _ _ _ _ _ _ Hl) as (Hn & HE & HF & _).
  split; [exact Hn|]. split; [exact HE | exact HF].
Defined.
